(** * neoverify: the document-verification service

    A shallow embedding of
      - [verification/ml_models/forgery_detector.py] (class [ForgeryDetector]),
      - [verification/models.py] (model [VerificationJob] and the view
        [DocumentVerificationView]),
      - [verification/tasks.py] (the Celery task
        [process_document_verification]),
    together with the properties of the service's specification.

    Python exceptions are an error monad over an explicit world state (the
    job table, the task queue, the outcome of the next database writes, a
    clock and a counter of model loads).  Python floats are IEEE binary64
    numbers, the kernel's primitive floats.  The libraries the code calls
    (OpenCV, Keras) and the helper methods the classes call but do not
    define are the fields of the class [Env]. *)

From stdpp Require Import gmap strings list pretty.
From Stdlib Require Import Floats.PrimFloat Numbers.Cyclic.Int63.Uint63.
From Stdlib Require Import ZArith Lia.

Local Open Scope string_scope.

(** ** Exceptions and results *)

(** The exception classes that occur; all of them derive from [Exception]. *)
Inductive exn_class :=
  | DoesNotExist        (* VerificationJob.DoesNotExist *)
  | UnboundLocalError
  | cv2_error
  | OSError
  | IndexError
  | KeyError
  | TypeError
  | IntegrityError
  | OperationalError
  | RuntimeError.

Record exn := Exn { exn_type : exn_class; exn_str : string }.

Inductive result (A : Type) :=
  | Ok (a : A)
  | Raise (e : exn).
Arguments Ok {A} a.
Arguments Raise {A} e.

Definition is_ok {A} (r : result A) : bool :=
  match r with Ok _ => true | Raise _ => false end.

#[global] Instance exn_class_eq_dec : EqDecision exn_class.
Proof. solve_decision. Defined.

(** ** A state and exception monad *)

Definition M (S A : Type) : Type := S -> result A * S.

Definition ret {S A} (a : A) : M S A := fun s => (Ok a, s).

Definition raise {S A} (e : exn) : M S A := fun s => (Raise e, s).

Definition bind {S A B} (m : M S A) (k : A -> M S B) : M S B :=
  fun s =>
    match m s with
    | (Ok a, s') => k a s'
    | (Raise e, s') => (Raise e, s')
    end.

(** [try: body except Exception as e: handler e].  What the body wrote before
    it raised stays written. *)
Definition try_except {S A} (body : M S A) (handler : exn -> M S A) : M S A :=
  fun s =>
    match body s with
    | (Ok a, s') => (Ok a, s')
    | (Raise e, s') => handler e s'
    end.

(** [try: body except cls: handler]: other classes propagate. *)
Definition try_except_cls {S A} (cls : exn_class)
    (body : M S A) (handler : M S A) : M S A :=
  fun s =>
    match body s with
    | (Ok a, s') => (Ok a, s')
    | (Raise e, s') =>
        if decide (exn_type e = cls) then handler s' else (Raise e, s')
    end.

Definition lift_result {S A} (r : result A) : M S A := fun s => (r, s).

Definition gets {S A} (f : S -> A) : M S A := fun s => (Ok (f s), s).

Definition modify {S} (f : S -> S) : M S unit := fun s => (Ok tt, f s).

Declare Scope py_scope.
Delimit Scope py_scope with py.
Notation "x <- c ;; k" := (bind c (fun x => k))
  (at level 100, c at next level, right associativity) : py_scope.
Notation "c ;;; k" := (bind c (fun _ => k))
  (at level 100, right associativity) : py_scope.
Local Open Scope py_scope.

(** ** Python values *)

(** The values that travel through result dictionaries and JSON bodies.  A
    dict keeps its items in insertion order. *)
#[warnings="-register-all"]
Inductive pyval :=
  | PyNone
  | PyBool (b : bool)
  | PyFloat (x : float)
  | PyStr (s : string)
  | PyDict (items : list (string * pyval)).

Fixpoint assoc (k : string) (items : list (string * pyval)) : option pyval :=
  match items with
  | [] => None
  | (k', v) :: rest => if decide (k' = k) then Some v else assoc k rest
  end.

(** [d.get(k)] *)
Definition py_get (d : pyval) (k : string) : option pyval :=
  match d with
  | PyDict items => assoc k items
  | _ => None
  end.

(** [k in d] *)
Definition py_contains (d : pyval) (k : string) : bool :=
  match py_get d k with Some _ => true | None => false end.

(** [d[k]] *)
Definition py_getitem (d : pyval) (k : string) : result pyval :=
  match d with
  | PyDict items =>
      match assoc k items with
      | Some v => Ok v
      | None => Raise (Exn KeyError k)
      end
  | _ => Raise (Exn TypeError "object is not subscriptable")
  end.

(** ** models.py: [VerificationJob] *)

Inductive Status := pending | processing | completed | failed.

#[global] Instance Status_eq_dec : EqDecision Status.
Proof. solve_decision. Defined.

(** The stored string of a status, the first component of [STATUS_CHOICES]. *)
Definition status_str (s : Status) : string :=
  match s with
  | pending => "pending"
  | processing => "processing"
  | completed => "completed"
  | failed => "failed"
  end.

(** A UUID in its string form, [str(job.id)]. *)
Abbreviation uuid := string.

Record VerificationJob := {
  id : uuid;
  document_hash : string;
  file_path : string;
  status : Status;
  confidence_score : pyval;            (* FloatField(null=True) *)
  analysis_results : pyval;            (* JSONField(default=dict) *)
  created_at : nat;
  completed_at : option nat            (* DateTimeField(null=True) *)
}.

Definition set_status (s : Status) (j : VerificationJob) : VerificationJob :=
  {| id := id j; document_hash := document_hash j; file_path := file_path j;
     status := s; confidence_score := confidence_score j;
     analysis_results := analysis_results j; created_at := created_at j;
     completed_at := completed_at j |}.

Definition set_confidence_score (c : pyval) (j : VerificationJob) :
    VerificationJob :=
  {| id := id j; document_hash := document_hash j; file_path := file_path j;
     status := status j; confidence_score := c;
     analysis_results := analysis_results j; created_at := created_at j;
     completed_at := completed_at j |}.

Definition set_analysis_results (r : pyval) (j : VerificationJob) :
    VerificationJob :=
  {| id := id j; document_hash := document_hash j; file_path := file_path j;
     status := status j; confidence_score := confidence_score j;
     analysis_results := r; created_at := created_at j;
     completed_at := completed_at j |}.

Definition set_completed_at (t : option nat) (j : VerificationJob) :
    VerificationJob :=
  {| id := id j; document_hash := document_hash j; file_path := file_path j;
     status := status j; confidence_score := confidence_score j;
     analysis_results := analysis_results j; created_at := created_at j;
     completed_at := t |}.

(** ** The world *)

(** [db] is the table of [VerificationJob] rows by primary key; [queue] the
    ids handed to Celery and not yet delivered; [faults] the outcome of the
    coming database writes, one entry per attempt ([Some e]: the write raises
    [e]; past the end of the list every write succeeds); [uuid_draws] the
    number of [uuid.uuid4()] calls so far; [model_loads] the number of calls
    of [tf.keras.models.load_model] so far; [log] the statuses written to the
    table, oldest first, with the row's id. *)
Record World := {
  db : gmap string VerificationJob;
  queue : list uuid;
  faults : list (option exn);
  clock : nat;
  uuid_draws : nat;
  model_loads : nat;
  log : list (uuid * Status)
}.

Definition with_db (f : gmap string VerificationJob -> gmap string VerificationJob)
    (w : World) : World :=
  {| db := f (db w); queue := queue w; faults := faults w; clock := clock w;
     uuid_draws := uuid_draws w; model_loads := model_loads w; log := log w |}.

Definition with_queue (f : list uuid -> list uuid) (w : World) : World :=
  {| db := db w; queue := f (queue w); faults := faults w; clock := clock w;
     uuid_draws := uuid_draws w; model_loads := model_loads w; log := log w |}.

Definition with_faults (f : list (option exn) -> list (option exn))
    (w : World) : World :=
  {| db := db w; queue := queue w; faults := f (faults w); clock := clock w;
     uuid_draws := uuid_draws w; model_loads := model_loads w; log := log w |}.

Definition with_clock (f : nat -> nat) (w : World) : World :=
  {| db := db w; queue := queue w; faults := faults w; clock := f (clock w);
     uuid_draws := uuid_draws w; model_loads := model_loads w; log := log w |}.

Definition with_uuid_draws (f : nat -> nat) (w : World) : World :=
  {| db := db w; queue := queue w; faults := faults w; clock := clock w;
     uuid_draws := f (uuid_draws w); model_loads := model_loads w;
     log := log w |}.

Definition with_model_loads (f : nat -> nat) (w : World) : World :=
  {| db := db w; queue := queue w; faults := faults w; clock := clock w;
     uuid_draws := uuid_draws w; model_loads := f (model_loads w);
     log := log w |}.

Definition with_log (f : list (uuid * Status) -> list (uuid * Status))
    (w : World) : World :=
  {| db := db w; queue := queue w; faults := faults w; clock := clock w;
     uuid_draws := uuid_draws w; model_loads := model_loads w;
     log := f (log w) |}.

(** [timezone.now()] *)
Definition timezone_now : M World nat :=
  fun w => (Ok (clock w), with_clock S w).

(** The exception the next database write raises, if it raises. *)
Definition next_fault (w : World) : option exn :=
  match faults w with
  | Some e :: _ => Some e
  | _ => None
  end.

(** One attempt to write to the database: consumes the next entry of
    [faults]. *)
Definition db_attempt : M World unit :=
  fun w =>
    (match next_fault w with Some e => Raise e | None => Ok tt end,
     with_faults tail w).

Definition write_row (j : VerificationJob) : M World unit :=
  modify (fun w => with_log (fun l => (l ++ [(id j, status j)])%list)
                     (with_db (insert (id j) j) w)).

(** [VerificationJob.objects.get(id=job_id)] *)
Definition objects_get (job_id : uuid) : M World VerificationJob :=
  fun w =>
    match db w !! job_id with
    | Some j => (Ok j, w)
    | None =>
        (Raise (Exn DoesNotExist
                  "VerificationJob matching query does not exist."), w)
    end.

(** [job.save()]: writes every field of the instance to the row of its
    primary key. *)
Definition save (j : VerificationJob) : M World unit :=
  db_attempt ;;; write_row j.

(** A second bind, for code that can raise but touches no state. *)
Definition rbind {A B} (r : result A) (k : A -> result B) : result B :=
  match r with
  | Ok a => k a
  | Raise e => Raise e
  end.

Declare Scope res_scope.
Delimit Scope res_scope with res.
Notation "x <- c ;; k" := (rbind c (fun x => k))
  (at level 100, c at next level, right associativity) : res_scope.

(** [l[i]] on a sequence *)
Definition getitem {A} (l : list A) (i : nat) : result A :=
  match l !! i with
  | Some a => Ok a
  | None => Raise (Exn IndexError "index out of range")
  end.

(** ** Arrays and images *)

(** An 8-bit BGR image as [cv2.imread] returns it: rows of pixels. *)
Record Pixel := { blue : Byte.byte; green : Byte.byte; red : Byte.byte }.

Definition Image : Type := list (list Pixel).

(** A float array of three dimensions (rows, columns, channels), and a batch
    of them. *)
Definition ndarray3 : Type := list (list (list float)).
Definition ndarray4 : Type := list ndarray3.

Definition uint8_to_float (b : Byte.byte) : float :=
  PrimFloat.of_uint63 (Uint63.of_Z (Z.of_N (Byte.to_N b))).

(** [image / 255.0], element by element. *)
Definition div_255 (image : Image) : ndarray3 :=
  map (map (fun px =>
         [ PrimFloat.div (uint8_to_float (blue px)) 255%float;
           PrimFloat.div (uint8_to_float (green px)) 255%float;
           PrimFloat.div (uint8_to_float (red px)) 255%float ])) image.

(** [np.expand_dims(image, axis=0)] *)
Definition expand_dims (image : ndarray3) : ndarray4 := [image].




Definition in_unit_interval (x : float) : bool :=
  PrimFloat.leb 0%float x && PrimFloat.leb x 1%float.


(** A loaded Keras model: its forward pass. *)
Record Model := { predict : ndarray4 -> result (list (list float)) }.

(** ** The HTTP layer's data *)

Record UploadedFile := { name : string; content : list Byte.byte }.

Record Request := { FILES : gmap string UploadedFile }.

Record Response := { status_code : nat; data : pyval }.

Definition HTTP_200_OK : nat := 200.
Definition HTTP_400_BAD_REQUEST : nat := 400.
Definition HTTP_404_NOT_FOUND : nat := 404.

(** Truth value of [request.FILES.get('document')]: [None] is false, and a
    file object is true when its name is not empty ([File.__bool__]). *)
Definition truthy (f : option UploadedFile) : bool :=
  match f with
  | None => false
  | Some f => negb (String.eqb (name f) "")
  end.

(** ** The environment: libraries and undefined helpers *)

Class Env := {
  (** [cv2.imread]: the decoded image, or [None] when the file is missing,
      unreadable or not an image. *)
  cv2_imread : string -> option Image;
  (** The interpolation of [cv2.resize] on a decoded image, for the target
      size (width, height). *)
  cv2_resample : Image -> nat * nat -> Image;
  (** [tf.keras.models.load_model]: what is stored under a path. *)
  keras_load_model : string -> result Model;
  (** The three analysis methods, which [get_detailed_analysis] calls and the
      class [ForgeryDetector] does not define. *)
  check_font_consistency : string -> result pyval;
  analyze_pixels : string -> result pyval;
  detect_compression_artifacts : string -> result pyval;
  (** The two helpers of the view, which [post] calls and the class
      [DocumentVerificationView] does not define. *)
  calculate_hash : UploadedFile -> result string;
  save_file : UploadedFile -> result string;
  (** [uuid.uuid4()]: the n-th draw. *)
  uuid4 : nat -> uuid
}.

Section Service.

Context {env : Env}.

(** *** ml_models/forgery_detector.py *)

(** [cv2.resize(src, dsize)]: raises on an empty source, which is what
    [cv2.imread] hands over for a file it cannot decode. *)
Definition cv2_resize (src : option Image) (dsize : nat * nat) :
    result Image :=
  match src with
  | None =>
      Raise (Exn cv2_error
               "(-215:Assertion failed) !ssize.empty() in function 'resize'")
  | Some image => Ok (cv2_resample image dsize)
  end.

Record ForgeryDetector := { model : Model }.

Definition load_model : M World Model :=
  fun w => (keras_load_model "models/forgery_detection_model.h5",
            with_model_loads S w).

(** [ForgeryDetector()] *)
Definition ForgeryDetector_init : M World ForgeryDetector :=
  m <- load_model ;;
  ret {| model := m |}.

Definition preprocess_image (image_path : string) : result ndarray4 :=
  (let image := cv2_imread image_path in
   image <- cv2_resize image (224, 224) ;;
   let image := div_255 image in
   Ok (expand_dims image))%res.

Definition get_detailed_analysis (image_path : string) : result pyval :=
  (font_consistency <- check_font_consistency image_path ;;
   pixel_analysis <- analyze_pixels image_path ;;
   compression_artifacts <- detect_compression_artifacts image_path ;;
   Ok (PyDict [ ("font_consistency", font_consistency);
                ("pixel_analysis", pixel_analysis);
                ("compression_artifacts", compression_artifacts) ]))%res.

Definition detect_forgery (self : ForgeryDetector) (image_path : string) :
    result pyval :=
  (processed_image <- preprocess_image image_path ;;
   prediction <- predict (model self) processed_image ;;
   row <- getitem prediction 0 ;;
   confidence <- getitem row 0 ;;
   let is_authentic := PrimFloat.ltb 0.5%float confidence in
   analysis_details <- get_detailed_analysis image_path ;;
   Ok (PyDict [ ("is_authentic", PyBool is_authentic);
                ("confidence_score", PyFloat confidence);
                ("analysis_details", analysis_details) ]))%res.

(** *** models.py: the manager and the view *)

(** [VerificationJob.objects.create(document_hash=, file_path=, status=)]:
    a fresh instance with the field defaults, inserted as a new row. *)
Definition objects_create (document_hash file_path : string)
    (status : Status) : M World VerificationJob :=
  n <- gets uuid_draws ;;
  modify (with_uuid_draws S) ;;;
  now <- timezone_now ;;
  let job := {| id := uuid4 n; document_hash := document_hash;
                file_path := file_path; status := status;
                confidence_score := PyNone; analysis_results := PyDict [];
                created_at := now; completed_at := None |} in
  db_attempt ;;;
  existing <- gets (fun w => db w !! id job) ;;
  match existing with
  | Some _ => raise (Exn IntegrityError "duplicate key value")
  | None => write_row job ;;; ret job
  end.

(** [process_document_verification.delay(job_id)] *)
Definition delay (job_id : uuid) : M World unit :=
  modify (with_queue (fun q => (q ++ [job_id])%list)).

Definition post (request : Request) : M World Response :=
  let uploaded_file := FILES request !! "document" in
  match uploaded_file with
  | Some file =>
      if truthy uploaded_file then
        document_hash <- lift_result (calculate_hash file) ;;
        file_path <- lift_result (save_file file) ;;
        job <- objects_create document_hash file_path pending ;;
        delay (id job) ;;;
        ret {| status_code := HTTP_200_OK;
               data := PyDict [ ("verification_id", PyStr (id job));
                                ("status", PyStr (status_str (status job))) ] |}
      else
        ret {| status_code := HTTP_400_BAD_REQUEST;
               data := PyDict [ ("error", PyStr "No document provided") ] |}
  | None =>
      ret {| status_code := HTTP_400_BAD_REQUEST;
             data := PyDict [ ("error", PyStr "No document provided") ] |}
  end.

Definition get (verification_id : uuid) : M World Response :=
  try_except_cls DoesNotExist
    (job <- objects_get verification_id ;;
     ret {| status_code := HTTP_200_OK;
            data := PyDict [ ("verification_id", PyStr (id job));
                             ("status", PyStr (status_str (status job)));
                             ("confidence_score", confidence_score job);
                             ("analysis_results", analysis_results job) ] |})
    (ret {| status_code := HTTP_404_NOT_FOUND;
            data := PyDict [ ("error", PyStr "Verification job not found") ] |}).

(** *** tasks.py *)

(** The local variable [job] of the task and the world.  The variable is
    unbound until the assignment of the first line of the [try] block has
    happened. *)
Record Frame := { world : World; job : option VerificationJob }.

Definition lift_world {A} (m : M World A) : M Frame A :=
  fun f =>
    let (r, w) := m (world f) in (r, {| world := w; job := job f |}).

(** [job = v] *)
Definition assign_job (v : VerificationJob) : M Frame unit :=
  modify (fun f => {| world := world f; job := Some v |}).

(** A read of the variable [job]. *)
Definition read_job : M Frame VerificationJob :=
  fun f =>
    match job f with
    | Some v => (Ok v, f)
    | None =>
        (Raise (Exn UnboundLocalError
                  "cannot access local variable 'job' where it is not associated with a value"),
         f)
    end.

(** [job.field = v], through the setter of the field *)
Definition job_setattr (set : VerificationJob -> VerificationJob) :
    M Frame unit :=
  v <- read_job ;;
  assign_job (set v).

(** [job.save()] *)
Definition job_save : M Frame unit :=
  v <- read_job ;;
  lift_world (save v).

Definition process_document_verification_body (job_id : uuid) :
    M Frame unit :=
  try_except
    (v <- lift_world (objects_get job_id) ;;
     assign_job v ;;;
     job_setattr (set_status processing) ;;;
     job_save ;;;

     detector <- lift_world ForgeryDetector_init ;;
     v <- read_job ;;
     results <- lift_result (detect_forgery detector (file_path v)) ;;

     c <- lift_result (py_getitem results "confidence_score") ;;
     job_setattr (set_confidence_score c) ;;;
     job_setattr (set_analysis_results results) ;;;
     job_setattr (set_status completed) ;;;
     now <- lift_world timezone_now ;;
     job_setattr (set_completed_at (Some now)) ;;;
     job_save)
    (fun e =>
     job_setattr (set_status failed) ;;;
     job_setattr (set_analysis_results (PyDict [ ("error", PyStr (exn_str e)) ])) ;;;
     job_save).

(** The task as the worker runs it: what it returns or raises past the
    worker, and the world it leaves. *)
Definition process_document_verification (job_id : uuid) : M World unit :=
  fun w =>
    let (r, f) :=
      process_document_verification_body job_id {| world := w; job := None |}
    in (r, world f).

(** *** The service as a transition system *)

(** One step of the service: a POST, a GET, or the delivery of the oldest
    queued id to a worker. *)
Inductive step : World -> World -> Prop :=
  | step_post request w :
      step w (snd (post request w))
  | step_get verification_id w :
      step w (snd (get verification_id w))
  | step_worker job_id rest w :
      queue w = job_id :: rest ->
      step w (snd (process_document_verification job_id
                     (with_queue (fun _ => rest) w))).

(** A world before any request: no row, nothing queued, nothing written;
    its clock, its coming write faults and its counters are arbitrary. *)
Definition initial (w : World) : Prop :=
  db w = ∅ /\ queue w = [] /\ log w = [].

Definition reachable (w : World) : Prop :=
  exists w0, initial w0 /\ rtc step w0 w.

(** The statuses written for one id, oldest first. *)
Definition history (job_id : uuid) (w : World) : list Status :=
  map snd (filter (fun entry => fst entry = job_id) (log w)).


(** *** The task, unfolded *)

(** The row the handler of the task saves, from the instance [v] it finds
    in [job]. *)
Definition failed_row (e : exn) (v : VerificationJob) : VerificationJob :=
  set_analysis_results (PyDict [ ("error", PyStr (exn_str e)) ])
    (set_status failed v).

(** The row the last [save] of the [try] block writes. *)
Definition completed_row (results c : pyval) (now : nat)
    (v : VerificationJob) : VerificationJob :=
  set_completed_at (Some now)
    (set_status completed
       (set_analysis_results results (set_confidence_score c v))).

Definition unbound_job : exn :=
  Exn UnboundLocalError
    "cannot access local variable 'job' where it is not associated with a value".

(** [process_document_verification] with its monad and its frame expanded:
    one [match] for each call that can raise.  [task_unfold] below proves
    the two equal; the proofs about the task go through this form. *)
Definition task_unfolded (job_id : uuid) (w : World) : result unit * World :=
  match db w !! job_id with
  | None => (Raise unbound_job, w)
  | Some j =>
      let j1 := set_status processing j in
      match save j1 w with
      | (Raise e, w1) => save (failed_row e j1) w1
      | (Ok _, w1) =>
          let w2 := with_model_loads S w1 in
          match keras_load_model "models/forgery_detection_model.h5" with
          | Raise e => save (failed_row e j1) w2
          | Ok m =>
              match detect_forgery {| model := m |} (file_path j1) with
              | Raise e => save (failed_row e j1) w2
              | Ok results =>
                  match py_getitem results "confidence_score" with
                  | Raise e => save (failed_row e j1) w2
                  | Ok c =>
                      let j2 := completed_row results c (clock w2) j1 in
                      match save j2 (with_clock S w2) with
                      | (Raise e, w3) => save (failed_row e j2) w3
                      | (Ok _, w3) => (Ok tt, w3)
                      end
                  end
              end
          end
      end
  end.

(** What a successful detection hands to the task: the result dictionary
    of some detector built on the artifact, and its confidence entry. *)
Definition detection (image_path : string) (results c : pyval) : Prop :=
  exists m,
    keras_load_model "models/forgery_detection_model.h5" = Ok m /\
    detect_forgery {| model := m |} image_path = Ok results /\
    py_getitem results "confidence_score" = Ok c.

(** The rows one run of the task can write for the row [j] it loaded, in
    the order of the writes. *)
Inductive task_rows (j : VerificationJob) : list VerificationJob -> Prop :=
  | rows_none :
      task_rows j []
  | rows_failed_early e :
      task_rows j [failed_row e (set_status processing j)]
  | rows_processing :
      task_rows j [set_status processing j]
  | rows_failed e :
      task_rows j [set_status processing j;
                   failed_row e (set_status processing j)]
  | rows_completed results c now :
      detection (file_path j) results c ->
      task_rows j [set_status processing j;
                   completed_row results c now (set_status processing j)]
  | rows_failed_late results c now e :
      detection (file_path j) results c ->
      task_rows j [set_status processing j;
                   failed_row e
                     (completed_row results c now (set_status processing j))].

End Service.

(** ** Writes and histories *)

(** The world after the row [r] has been written. *)
Definition apply_write (r : VerificationJob) (w : World) : World :=
  with_log (fun l => (l ++ [(id r, status r)])%list)
    (with_db (insert (id r) r) w).

(** [w'] is [w] after the rows [rows] were written in this order; the queue
    and the number of UUID draws are the same. *)
Definition wrote (rows : list VerificationJob) (w w' : World) : Prop :=
  db w' = foldl (fun m r => <[id r := r]> m) (db w) rows /\
  log w' = (log w ++ map (fun r => (id r, status r)) rows)%list /\
  queue w' = queue w.

(** The lifecycle as the code has it: the three transitions of the state
    machine, and the one from [pending] to [failed] that a run takes when its
    first write raises. *)
Inductive forward : Status -> Status -> Prop :=
  | forward_start : forward pending processing
  | forward_complete : forward processing completed
  | forward_fail : forward processing failed
  | forward_fail_early : forward pending failed.

(** The lifecycle as the specification draws it. *)
Inductive forward_spec : Status -> Status -> Prop :=
  | forward_spec_start : forward_spec pending processing
  | forward_spec_complete : forward_spec processing completed
  | forward_spec_fail : forward_spec processing failed.

(** Consecutive entries of a list are related. *)
Fixpoint chain {A} (R : A -> A -> Prop) (l : list A) : Prop :=
  match l with
  | a :: (b :: _) as rest => R a b /\ chain R rest
  | _ => True
  end.

(** A history of one job: it begins at [pending] and follows [R]. *)
Definition lifecycle (R : Status -> Status -> Prop) (h : list Status) : Prop :=
  (h = [] \/ head h = Some pending) /\ chain R h.

(** The position of a status in the lifecycle. *)
Definition rank (s : Status) : nat :=
  match s with
  | pending => 0
  | processing => 1
  | completed => 2
  | failed => 2
  end.


(** The row a POST creates. *)
Definition created (job : VerificationJob) : Prop :=
  status job = pending /\ confidence_score job = PyNone /\
  analysis_results job = PyDict [] /\ completed_at job = None.

(** The invariant of the transition system that relates the table, the queue
    and the histories: a row is stored under its own id and its status is
    the last one written for it; an id without a row has no history; an id
    is queued at most once, and only while its history is [pending] alone;
    every history follows the lifecycle. *)
Definition consistent (w : World) : Prop :=
  (forall k j, db w !! k = Some j ->
     id j = k /\ last (history k w) = Some (status j)) /\
  (forall k, db w !! k = None -> history k w = []) /\
  NoDup (queue w) /\
  (forall k, k ∈ queue w -> history k w = [pending]) /\
  (forall k, lifecycle forward (history k w)).

(** The next [n] writes do not raise. *)
Definition writes_succeed (n : nat) (w : World) : bool :=
  forallb (fun o => match o with None => true | Some _ => false end)
    (take n (faults w)).




(** ** What a GET reports *)

Definition analysis_keys : list string :=
  [ "font_consistency"; "pixel_analysis"; "compression_artifacts" ].

Definition has_keys (d : pyval) (keys : list string) : bool :=
  forallb (py_contains d) keys.

(** The body of a 200 response for a completed job with score [c] and
    analysis mapping [analysis]. *)
Definition reports_completed (r : Response) (c : float) (analysis : pyval) :
    Prop :=
  status_code r = HTTP_200_OK /\
  py_get (data r) "status" = Some (PyStr "completed") /\
  py_get (data r) "confidence_score" = Some (PyFloat c) /\
  py_get (data r) "analysis_results" = Some analysis.

(** What the specification's scenario expects of the response to a GET for a
    processed upload: status [completed], a float score in [0, 1], and an
    analysis mapping that contains the three analysis keys. *)
Definition scenario_response (r : Response) : Prop :=
  exists c analysis,
    reports_completed r c analysis /\
    in_unit_interval c = true /\
    has_keys analysis analysis_keys = true.

(** ** More vocabulary for statements *)

(** The fields a run of the task never assigns. *)
Definition same_identity (j r : VerificationJob) : Prop :=
  id r = id j /\ document_hash r = document_hash j /\
  file_path r = file_path j /\ created_at r = created_at j.


(** One entry of [image / 255.0]. *)
Definition scaled (b : Byte.byte) : float :=
  PrimFloat.div (uint8_to_float b) 255%float.

(** The 256 values of a [uint8], in increasing order. *)
Definition all_bytes : list Byte.byte :=
  omap Byte.of_N (map N.of_nat (seq 0 256)).

(** [scaled] keeps the order of [a] and [b]. *)
Definition scaled_in_order (a b : Byte.byte) : bool :=
  implb (N.ltb (Byte.to_N a) (Byte.to_N b))
        (PrimFloat.ltb (scaled a) (scaled b)).

(** ** A small installation, to run the code on *)

Definition black : Pixel :=
  {| blue := Byte.x00; green := Byte.x00; red := Byte.x00 |}.

(** A model whose forward pass answers [c] for every input. *)
Definition constant_model (c : float) : Model :=
  {| predict := fun _ => Ok [[c]] |}.

(** One decodable image, [uploads/scan.jpg]; a resize that repeats the top
    left pixel; the artifact at its path, answering [c]; analyses that
    return booleans; uploads stored under [uploads/]; UUIDs [job-0],
    [job-1], ... *)
Definition demo (c : float) : Env := {|
  cv2_imread := fun p =>
    if decide (p = "uploads/scan.jpg") then Some [[black]] else None;
  cv2_resample := fun image '(width, height) =>
    replicate height
      (replicate width (default black (head (default [] (head image)))));
  keras_load_model := fun p =>
    if decide (p = "models/forgery_detection_model.h5")
    then Ok (constant_model c)
    else Raise (Exn OSError "No file or directory found");
  check_font_consistency := fun _ => Ok (PyBool true);
  analyze_pixels := fun _ => Ok (PyBool true);
  detect_compression_artifacts := fun _ => Ok (PyBool false);
  calculate_hash := fun _ => Ok "9f86d081884c7d65";
  save_file := fun f => Ok ("uploads/" ++ name f);
  uuid4 := fun n => "job-" ++ pretty n
|}.

(** A world before any request, with the given outcomes of its writes. *)
Definition fresh (outcomes : list (option exn)) : World :=
  {| db := ∅; queue := []; faults := outcomes; clock := 0; uuid_draws := 0;
     model_loads := 0; log := [] |}.

Definition upload : Request :=
  {| FILES := {[ "document" := {| name := "scan.jpg"; content := [] |} ]} |}.

Definition empty_request : Request := {| FILES := ∅ |}.

Definition outage : exn := Exn OperationalError "server closed the connection".

(** The delivery of the oldest queued id, as [step_worker] does it. *)
Definition deliver {env : Env} (w : World) : World :=
  match queue w with
  | [] => w
  | job_id :: rest =>
      snd (process_document_verification job_id (with_queue (fun _ => rest) w))
  end.

(** One upload and its processing. *)
Definition upload_and_process {env : Env} (w : World) : World :=
  deliver (snd (post upload w)).

(** Two uploads, none processed yet. *)
Definition two_uploads {env : Env} (w : World) : World :=
  snd (post upload (snd (post upload w))).

(** The row [demo] creates for the first upload into a fresh world, and the
    row its processing writes when the model answers 0.75. *)
Definition demo_pending_row : VerificationJob :=
  {| id := "job-0"; document_hash := "9f86d081884c7d65";
     file_path := "uploads/scan.jpg"; status := pending;
     confidence_score := PyNone; analysis_results := PyDict [];
     created_at := 0; completed_at := None |}.

Definition demo_results : pyval :=
  PyDict [ ("is_authentic", PyBool true);
           ("confidence_score", PyFloat 0.75%float);
           ("analysis_details",
            PyDict [ ("font_consistency", PyBool true);
                     ("pixel_analysis", PyBool true);
                     ("compression_artifacts", PyBool false) ]) ].

Definition demo_completed_row : VerificationJob :=
  {| id := "job-0"; document_hash := "9f86d081884c7d65";
     file_path := "uploads/scan.jpg"; status := completed;
     confidence_score := PyFloat 0.75%float; analysis_results := demo_results;
     created_at := 0; completed_at := Some 1 |}.


(** An upload that [demo] stores under a path it cannot decode, and the row
    its POST creates in a fresh world. *)
Definition torn_upload : Request :=
  {| FILES := {[ "document" := {| name := "torn.jpg"; content := [] |} ]} |}.

Definition demo_torn_row : VerificationJob :=
  {| id := "job-0"; document_hash := "9f86d081884c7d65";
     file_path := "uploads/torn.jpg"; status := pending;
     confidence_score := PyNone; analysis_results := PyDict [];
     created_at := 0; completed_at := None |}.

Definition resize_of_nothing : exn :=
  Exn cv2_error "(-215:Assertion failed) !ssize.empty() in function 'resize'".

Local Open Scope list_scope.

(** * Properties *)

(** ** Arrays *)




Lemma all_bytes_complete (b : Byte.byte) :
  existsb (Byte.eqb b) all_bytes = true.
Proof. destruct b; vm_compute; reflexivity. Qed.

Lemma scaled_in_order_all :
  forallb (fun a => forallb (scaled_in_order a) all_bytes) all_bytes = true.
Proof. vm_compute. reflexivity. Qed.

Lemma in_all_bytes (b : Byte.byte) : In b all_bytes.
Proof.
  pose proof (all_bytes_complete b) as H.
  apply existsb_exists in H as (x & Hin & Heq).
  apply Byte.byte_dec_bl in Heq. by subst.
Qed.

(** X13.  The division by 255.0 of [preprocess_image] keeps the order of the
    pixel values strictly (so distinct values stay distinct), and sends 0 to
    0.0 and 255 to 1.0 exactly. *)
Theorem scaling_keeps_order (a b : Byte.byte) :
  (Byte.to_N a < Byte.to_N b)%N ->
  PrimFloat.ltb (scaled a) (scaled b) = true /\
  scaled Byte.x00 = 0%float /\
  scaled Byte.xff = 1%float.
Proof.
  intros Hlt. split; [|split; reflexivity]. pose proof scaled_in_order_all as H.
  rewrite forallb_forall in H. specialize (H a (in_all_bytes a)).
  rewrite forallb_forall in H. specialize (H b (in_all_bytes b)).
  unfold scaled_in_order in H.
  apply N.ltb_lt in Hlt. rewrite Hlt in H. exact H.
Qed.

Section Properties.

Context {env : Env}.

(** ** The detector *)


(** The result dictionary of a detection that returns. *)
Lemma detect_forgery_shape self image_path results :
  detect_forgery self image_path = Ok results ->
  exists confidence details,
    results = PyDict [ ("is_authentic", PyBool (PrimFloat.ltb 0.5%float confidence));
                       ("confidence_score", PyFloat confidence);
                       ("analysis_details", details) ] /\
    get_detailed_analysis image_path = Ok details.
Proof.
  unfold detect_forgery, rbind. intros H.
  repeat match type of H with
         | match ?x with _ => _ end = _ => destruct x eqn:?; try discriminate
         end.
  injection H as <-. eauto.
Qed.

(** C5.  In every result of [detect_forgery] the flag [is_authentic] is
    true exactly when the score of the same result is strictly above 0.5;
    a score of 0.5 itself gives a flag that is false. *)
Theorem is_authentic_iff_above_half self image_path results :
  detect_forgery self image_path = Ok results ->
  exists confidence is_authentic,
    py_get results "confidence_score" = Some (PyFloat confidence) /\
    py_get results "is_authentic" = Some (PyBool is_authentic) /\
    (is_authentic = true <-> PrimFloat.ltb 0.5%float confidence = true) /\
    (confidence = 0.5%float -> is_authentic = false).
Proof.
  intros H. apply detect_forgery_shape in H as (c & details & -> & _).
  exists c, (PrimFloat.ltb 0.5%float c).
  repeat split; try reflexivity; try tauto.
  intros ->. reflexivity.
Qed.

(** ** The view *)


(** C7.  A POST whose files lack the field [document] answers 400 with an
    error body and leaves the world as it was: no row is created and
    nothing is queued. *)
Theorem post_without_document_400 (request : Request) (w : World) :
  FILES request !! "document" = None ->
  post request w =
    (Ok {| status_code := HTTP_400_BAD_REQUEST;
           data := PyDict [ ("error", PyStr "No document provided") ] |},
     w).
Proof. intros H. unfold post. rewrite H. reflexivity. Qed.

(** ** The task *)

Ltac expand_task :=
  cbv beta iota zeta delta
    [process_document_verification process_document_verification_body
     try_except bind lift_world objects_get assign_job job_setattr job_save
     read_job modify ForgeryDetector_init load_model lift_result
     timezone_now ret unbound_job world job completed_row].


Lemma task_unfold job_id w :
  process_document_verification job_id w = task_unfolded job_id w.
Proof.
  unfold task_unfolded. expand_task.
  destruct (db w !! job_id) as [j|]; [|reflexivity]. expand_task.
  destruct (save (set_status processing j) w) as [[[]|e] w1]; expand_task.
  2:{ destruct (save _ w1) as [[[]|e'] w']; reflexivity. }
  destruct (keras_load_model _) as [m|e]; expand_task.
  2:{ destruct (save _ _) as [[[]|e'] w']; reflexivity. }
  destruct (detect_forgery _ _) as [results|e]; expand_task.
  2:{ destruct (save _ _) as [[[]|e'] w']; reflexivity. }
  destruct (py_getitem _ _) as [c|e]; expand_task.
  2:{ destruct (save _ _) as [[[]|e'] w']; reflexivity. }
  destruct (save _ _) as [[[]|e] w3]; expand_task; [reflexivity|].
  destruct (save _ _) as [[[]|e'] w']; reflexivity.
Qed.

Lemma save_cases r w :
  save r w =
    match next_fault w with
    | Some e => (Raise e, with_faults tail w)
    | None => (Ok tt, apply_write r (with_faults tail w))
    end.
Proof.
  unfold save, bind, db_attempt, write_row, modify, apply_write.
  destruct (next_fault w); reflexivity.
Qed.

Lemma task_unknown_id job_id w :
  db w !! job_id = None ->
  process_document_verification job_id w = (Raise unbound_job, w).
Proof. intros H. rewrite task_unfold. unfold task_unfolded. rewrite H. reflexivity. Qed.

Ltac solve_wrote := unfold wrote; cbn; rewrite ?app_nil_r, <- ?app_assoc; done.

Lemma task_wrote job_id w j :
  db w !! job_id = Some j ->
  exists rows,
    task_rows j rows /\
    wrote rows w (snd (process_document_verification job_id w)).
Proof.
  intros Hj. rewrite task_unfold. unfold task_unfolded. rewrite Hj.
  set (j1 := set_status processing j).
  assert (forall e v w1 rows,
    wrote rows w w1 ->
    exists rows', (rows' = rows \/ rows' = rows ++ [failed_row e v]) /\
      wrote rows' w (snd (save (failed_row e v) w1))) as Hhandler.
  { intros e v w1 rows (Hdb & Hlog & Hq). rewrite save_cases.
    destruct (next_fault w1).
    - exists rows. split; [by left|]. done.
    - exists (rows ++ [failed_row e v])%list. split; [by right|].
      unfold wrote. cbn. rewrite Hdb, Hlog, Hq, foldl_app, map_app, app_assoc. done. }
  rewrite save_cases. destruct (next_fault w) as [e1|].
  { destruct (Hhandler e1 j1 (with_faults tail w) []) as (rows & [-> | ->] & Hw);
      [solve_wrote| | ]; eexists; (split; [|exact Hw]); constructor. }
  assert (wrote [j1] w (with_model_loads S (apply_write j1 (with_faults tail w))))
    as Hw1 by solve_wrote.
  destruct (keras_load_model _) as [m|e] eqn:Hm.
  2:{ destruct (Hhandler e j1 _ _ Hw1) as (rows & [-> | ->] & Hw);
        eexists; (split; [|exact Hw]); constructor. }
  destruct (detect_forgery _ _) as [results|e] eqn:Hd.
  2:{ destruct (Hhandler e j1 _ _ Hw1) as (rows & [-> | ->] & Hw);
        eexists; (split; [|exact Hw]); constructor. }
  destruct (py_getitem _ _) as [c|e] eqn:Hc.
  2:{ destruct (Hhandler e j1 _ _ Hw1) as (rows & [-> | ->] & Hw);
        eexists; (split; [|exact Hw]); constructor. }
  assert (detection (file_path j) results c) as Hdet by (exists m; auto).
  rewrite save_cases. destruct (next_fault _) as [e2|]; cbn [snd].
  - set (j2 := completed_row _ _ _ _).
    destruct (Hhandler e2 j2 (with_faults tail (with_clock S (with_model_loads S (apply_write j1 (with_faults tail w))))) _ Hw1)
      as (rows & [-> | ->] & Hw); eexists; (split; [|exact Hw]).
    + constructor.
    + by apply rows_failed_late.
  - eexists. split; [by apply rows_completed|]. solve_wrote.
Qed.

Lemma get_world verification_id w : snd (get verification_id w) = w.
Proof.
  unfold get, try_except_cls, bind, objects_get, ret.
  destruct (db w !! verification_id); reflexivity.
Qed.


Lemma post_cases request w :
  wrote [] w (snd (post request w)) \/
  exists job,
    created job /\ db w !! id job = None /\
    db (snd (post request w)) = <[id job := job]> (db w) /\
    log (snd (post request w)) = log w ++ [(id job, pending)] /\
    queue (snd (post request w)) = queue w ++ [id job].
Proof.
  unfold post.
  destruct (FILES request !! "document") as [file|]; [|left; solve_wrote].
  destruct (truthy _); [|left; solve_wrote].
  cbv beta iota zeta delta [bind lift_result objects_create gets modify timezone_now db_attempt write_row ret raise delay].
  destruct (calculate_hash file) as [h|e]; [|left; solve_wrote].
  destruct (save_file file) as [p|e]; [|left; solve_wrote].
  destruct (next_fault _) as [e|]; [left; solve_wrote|].
  cbn [db with_faults with_clock with_uuid_draws id].
  destruct (db w !! uuid4 (uuid_draws w)) as [old|] eqn:Hold; [left; solve_wrote|].
  right.
  exists {| id := uuid4 (uuid_draws w); document_hash := h; file_path := p;
            status := pending; confidence_score := PyNone;
            analysis_results := PyDict []; created_at := clock w;
            completed_at := None |}.
  repeat split; done.
Qed.

Lemma lookup_foldl_insert (rows : list VerificationJob) (m : gmap string VerificationJob) k r' :
  foldl (fun m r => <[id r := r]> m) m rows !! k = Some r' ->
  m !! k = Some r' \/ (r' ∈ rows /\ id r' = k).
Proof.
  revert m. induction rows as [|r rows IH]; intros m; cbn [foldl]; [by left|].
  intros H. apply IH in H as [H | [H1 H2]].
  - destruct (decide (id r = k)) as [<-|Hne].
    + rewrite lookup_insert_eq in H. injection H as <-. right. split; [left|done].
    + rewrite lookup_insert_ne in H by done. by left.
  - right. split; [by right|done].
Qed.

Lemma lookup_foldl_insert_None (rows : list VerificationJob) (m : gmap string VerificationJob) k :
  foldl (fun m r => <[id r := r]> m) m rows !! k = None -> m !! k = None.
Proof.
  revert m. induction rows as [|r rows IH]; intros m; cbn [foldl]; [done|].
  intros H. apply IH in H. destruct (decide (id r = k)) as [<-|Hne].
  - by rewrite lookup_insert_eq in H.
  - by rewrite lookup_insert_ne in H.
Qed.

(** A property of rows that creation establishes and every write of the
    task keeps holds of every row of every reachable world. *)
Lemma reachable_rows (Q : VerificationJob -> Prop) :
  (forall job, created job -> Q job) ->
  (forall j rows r, Q j -> task_rows j rows -> r ∈ rows -> Q r) ->
  forall w, reachable w -> forall k j, db w !! k = Some j -> Q j.
Proof.
  intros Hcreate Htask w (w0 & (Hdb0 & _) & Hsteps).
  revert w Hsteps. apply (rtc_ind_r (fun w => forall k j, db w !! k = Some j -> Q j)).
  { intros k j. rewrite Hdb0, lookup_empty. done. }
  intros w1 w2 _ Hstep IH.
  destruct Hstep as [request w|verification_id w|job_id rest w Hq].
  - destruct (post_cases request w) as [(Hdb & _) | (job & Hjob & _ & Hdb & _)];
      intros k j; rewrite Hdb; cbn [foldl]; [apply IH|].
    destruct (decide (id job = k)) as [<-|Hne].
    + rewrite lookup_insert_eq. intros [= <-]. by apply Hcreate.
    + rewrite lookup_insert_ne by done. apply IH.
  - rewrite get_world. exact IH.
  - set (w' := with_queue (fun _ => rest) w).
    destruct (db w' !! job_id) as [j0|] eqn:Hj0.
    + destruct (task_wrote job_id w' j0 Hj0) as (rows & Hrows & Hdb & _).
      intros k j. rewrite Hdb. intros [H | [H _]]%lookup_foldl_insert.
      * by apply (IH k).
      * apply (Htask j0 rows); [by apply (IH job_id)|done|done].
    + rewrite task_unknown_id by done. exact IH.
Qed.

Lemma py_getitem_get d k v : py_getitem d k = Ok v -> py_get d k = Some v.
Proof.
  unfold py_getitem, py_get. destruct d; try discriminate.
  destruct (assoc k items); [|discriminate]. by intros [= ->].
Qed.

(** C10.  In every reachable world, the [analysis_results] of a row whose
    status is [completed] is the whole dictionary [detect_forgery] returned
    for the row's file, with a detector built on the model artifact; so it
    contains the keys [confidence_score] and [is_authentic], and its
    [confidence_score] entry is the row's [confidence_score] column. *)
Theorem completed_row_stores_detection_result w k j :
  reachable w ->
  db w !! k = Some j ->
  status j = completed ->
  (exists m,
      keras_load_model "models/forgery_detection_model.h5" = Ok m /\
      detect_forgery {| model := m |} (file_path j) = Ok (analysis_results j)) /\
  py_contains (analysis_results j) "confidence_score" = true /\
  py_contains (analysis_results j) "is_authentic" = true /\
  py_get (analysis_results j) "confidence_score" = Some (confidence_score j).
Proof.
  intros Hreach Hk.
  apply (reachable_rows (fun j => status j = completed ->
    (exists m,
      keras_load_model "models/forgery_detection_model.h5" = Ok m /\
      detect_forgery {| model := m |} (file_path j) = Ok (analysis_results j)) /\
    py_contains (analysis_results j) "confidence_score" = true /\
    py_contains (analysis_results j) "is_authentic" = true /\
    py_get (analysis_results j) "confidence_score" = Some (confidence_score j)))
    with (w := w) (k := k); [| |done|done].
  - intros job (Hst & _) Hc. congruence.
  - clear. intros j rows r _ Hrows Hr.
    destruct Hrows as [|e| |e|results c now (m & Hm & Hd & Hc)|results c now e Hdet];
      repeat (apply elem_of_cons in Hr as [-> | Hr]); try (by apply elem_of_nil in Hr);
      cbn [status failed_row completed_row set_status set_analysis_results set_completed_at set_confidence_score];
      try discriminate.
    intros _. cbn.
    split; [by exists m|].
    destruct (detect_forgery_shape _ _ _ Hd) as (c' & details & -> & _).
    cbn in Hc. injection Hc as <-. done.
Qed.


Lemma history_app k w w' extra :
  log w' = log w ++ extra ->
  history k w' = history k w ++ map snd (filter (fun entry => fst entry = k) extra).
Proof. intros H. unfold history. by rewrite H, filter_app, map_app. Qed.

Lemma history_rows_other k k0 rows :
  Forall (fun r => id r = k0) rows -> k <> k0 ->
  map snd (filter (fun entry => fst entry = k) (map (fun r => (id r, status r)) rows)) = [].
Proof.
  intros Hrows Hne. induction Hrows as [|r rows Hr _ IH]; [done|].
  cbn [map]. rewrite filter_cons_False; [done|]. cbn. congruence.
Qed.

Lemma history_rows_same k rows :
  Forall (fun r => id r = k) rows ->
  map snd (filter (fun entry => fst entry = k) (map (fun r => (id r, status r)) rows)) = map status rows.
Proof.
  intros Hrows. induction Hrows as [|r rows Hr _ IH]; [done|].
  cbn [map]. rewrite filter_cons_True by done. cbn [map snd]. by rewrite IH.
Qed.

Lemma task_rows_id j rows : task_rows j rows -> Forall (fun r => id r = id j) rows.
Proof. intros []; repeat constructor. Qed.

Lemma task_rows_lifecycle j rows :
  task_rows j rows -> lifecycle forward (pending :: map status rows).
Proof.
  intros []; (split; [by right|]); cbn; repeat split; constructor.
Qed.

Lemma last_map {A B} (f : A -> B) (l : list A) : last (map f l) = f <$> last l.
Proof. induction l as [|a [|b l] IH]; done. Qed.

Lemma lookup_foldl_insert_same (rows : list VerificationJob) (m : gmap string VerificationJob) k :
  Forall (fun r => id r = k) rows ->
  foldl (fun m r => <[id r := r]> m) m rows !! k =
    match last rows with Some r => Some r | None => m !! k end.
Proof.
  intros Hrows. revert m. induction Hrows as [|r rows Hr Hrows IH]; intros m; [done|].
  cbn [foldl]. rewrite IH, Hr, lookup_insert_eq.
  destruct rows as [|r0 rows']; [done|].
  change (last (r :: r0 :: rows')) with (last (r0 :: rows')).
  destruct (last (r0 :: rows')) eqn:E; [done|]. by apply last_None in E.
Qed.

Lemma lookup_foldl_insert_other (rows : list VerificationJob) (m : gmap string VerificationJob) k k0 :
  Forall (fun r => id r = k0) rows -> k <> k0 ->
  foldl (fun m r => <[id r := r]> m) m rows !! k = m !! k.
Proof.
  intros Hrows Hne. revert m. induction Hrows as [|r rows Hr Hrows IH]; intros m; [done|].
  cbn [foldl]. rewrite IH, lookup_insert_ne; [done|congruence].
Qed.

Lemma reachable_consistent w : reachable w -> consistent w.
Proof.
  intros (w0 & (Hdb0 & Hq0 & Hlog0) & Hsteps). revert w Hsteps.
  apply (rtc_ind_r consistent).
  { unfold consistent, history. rewrite Hdb0, Hq0, Hlog0.
    refine (conj _ (conj _ (conj _ (conj _ _)))).
    - intros k j. by rewrite lookup_empty.
    - done.
    - constructor.
    - intros k Hk. by apply elem_of_nil in Hk.
    - intros k. split; [by left|done]. }
  intros w1 w2 _ Hstep (Hid & Hnone & Hnd & Hqueued & Hlife).
  destruct Hstep as [request w|verification_id w|job_id rest w Hq].
  - destruct (post_cases request w) as [(Hdb & Hlog & Hqu) | (job & Hjob & Hfresh & Hdb & Hlog & Hqu)].
    + cbn [foldl map] in *. rewrite app_nil_r in Hlog.
      unfold consistent, history. rewrite Hdb, Hlog, Hqu. done.
    + assert (forall k, history k (snd (post request w)) =
                history k w ++ if decide (id job = k) then [pending] else []) as Hh.
      { intros k. rewrite (history_app k w _ _ Hlog). f_equal.
        rewrite filter_cons. cbn [fst]. by destruct (decide (id job = k)). }
      assert (id job ∉ queue w) as Hnotin.
      { intros Hin. apply Hqueued in Hin. by rewrite (Hnone _ Hfresh) in Hin. }
      unfold consistent. rewrite Hdb, Hqu.
      refine (conj _ (conj _ (conj _ (conj _ _)))).
      * intros k j. rewrite Hh. destruct (decide (id job = k)) as [<-|Hne].
        -- rewrite lookup_insert_eq. intros [= <-].
           rewrite (Hnone _ Hfresh). by destruct Hjob as [-> _].
        -- rewrite lookup_insert_ne, app_nil_r by done. apply Hid.
      * intros k. rewrite Hh. destruct (decide (id job = k)) as [<-|Hne].
        -- by rewrite lookup_insert_eq.
        -- rewrite lookup_insert_ne, app_nil_r by done. apply Hnone.
      * apply NoDup_app. split; [done|]. split; [|apply NoDup_singleton].
        intros k Hk ->%list_elem_of_singleton. done.
      * intros k Hk. rewrite Hh. apply elem_of_app in Hk as [Hk | ->%list_elem_of_singleton].
        -- destruct (decide (id job = k)) as [<-|Hne]; [done|].
           rewrite app_nil_r. by apply Hqueued.
        -- rewrite decide_True by done. by rewrite (Hnone _ Hfresh).
      * intros k. rewrite Hh. destruct (decide (id job = k)) as [<-|Hne].
        -- rewrite (Hnone _ Hfresh). split; [by right|done].
        -- rewrite app_nil_r. apply Hlife.
  - by rewrite get_world.
  - set (w' := with_queue (fun _ => rest) w).
    assert (NoDup rest /\ job_id ∉ rest) as [Hnd' Hnotin].
    { rewrite Hq in Hnd. apply NoDup_cons in Hnd. tauto. }
    assert (history job_id w = [pending]) as Hpending.
    { apply Hqueued. rewrite Hq. left. }
    destruct (db w' !! job_id) as [j|] eqn:Hj.
    2:{ rewrite task_unknown_id by done. specialize (Hnone _ Hj). congruence. }
    destruct (task_wrote job_id w' j Hj) as (rows & Hrows & Hdb & Hlog & Hqu).
    assert (id j = job_id) as Hidj by (by apply Hid).
    assert (last (history job_id w) = Some (status j)) as Hlast by (by apply Hid).
    pose proof (task_rows_id _ _ Hrows) as Hids. rewrite Hidj in Hids.
    set (w2 := snd (process_document_verification job_id w')) in *.
    assert (forall k, history k w2 =
              history k w ++ if decide (k = job_id) then map status rows else []) as Hh.
    { intros k. rewrite (history_app k w' _ _ Hlog). f_equal.
      destruct (decide (k = job_id)) as [->|Hne].
      - by apply history_rows_same.
      - by apply (history_rows_other k job_id). }
    unfold consistent. rewrite Hqu. cbn [queue w' with_queue].
    refine (conj _ (conj _ (conj _ (conj _ _)))).
    + intros k r. rewrite Hdb, Hh. destruct (decide (k = job_id)) as [->|Hne].
      * rewrite (lookup_foldl_insert_same _ _ _ Hids), last_app, last_map.
        destruct (last rows) as [r'|] eqn:Hr'; cbn [fmap option_fmap option_map].
        -- intros [= <-]. split; [|done].
           apply last_Some_elem_of in Hr'. by apply (proj1 (Forall_forall _ _) Hids).
        -- rewrite Hj. intros [= <-]. done.
      * rewrite (lookup_foldl_insert_other _ _ _ _ Hids Hne), app_nil_r. apply Hid.
    + intros k. rewrite Hdb. intros H%lookup_foldl_insert_None. rewrite Hh.
      destruct (decide (k = job_id)) as [->|Hne]; [rewrite Hj in H; done|].
      rewrite app_nil_r. by apply Hnone.
    + done.
    + intros k Hk. rewrite Hh. rewrite decide_False by (intros ->; done).
      rewrite app_nil_r. apply Hqueued. rewrite Hq. by right.
    + intros k. rewrite Hh. destruct (decide (k = job_id)) as [->|Hne].
      * rewrite Hpending. apply (task_rows_lifecycle _ _ Hrows).
      * rewrite app_nil_r. apply Hlife.
Qed.



Lemma writes_succeed_next n w :
  writes_succeed (S n) w = true ->
  next_fault w = None /\ writes_succeed n (with_faults tail w) = true.
Proof.
  unfold writes_succeed, next_fault. cbn [faults with_faults].
  destruct (faults w) as [|[e|] rest]; cbn; try done.
  by destruct n.
Qed.

Lemma detect_forgery_returns self image_path image prediction row c font pixels artifacts :
  cv2_imread image_path = Some image ->
  predict (model self) (expand_dims (div_255 (cv2_resample image (224, 224)))) = Ok prediction ->
  getitem prediction 0 = Ok row ->
  getitem row 0 = Ok c ->
  check_font_consistency image_path = Ok font ->
  analyze_pixels image_path = Ok pixels ->
  detect_compression_artifacts image_path = Ok artifacts ->
  detect_forgery self image_path =
    Ok (PyDict [ ("is_authentic", PyBool (PrimFloat.ltb 0.5%float c));
                 ("confidence_score", PyFloat c);
                 ("analysis_details",
                  PyDict [ ("font_consistency", font);
                           ("pixel_analysis", pixels);
                           ("compression_artifacts", artifacts) ]) ]).
Proof.
  intros Him Hp Hrow Hc Hf Hx Ha.
  unfold detect_forgery, preprocess_image, get_detailed_analysis, cv2_resize, rbind.
  rewrite Him, Hp, Hrow, Hc, Hf, Hx, Ha. reflexivity.
Qed.

(** C2, amended.  Take a stored job whose file [cv2.imread] decodes, with the
    model artifact loading, the forward pass answering the score [c] at
    [prediction[0][0]], the three analyses returning, and the two writes of
    the run succeeding.  Then the task returns, and a GET for the job answers
    200 with status [completed], the score [c], and an [analysis_results]
    mapping whose keys are [is_authentic], [confidence_score] and
    [analysis_details]: the three analysis keys are the keys of the mapping
    under [analysis_details], not of [analysis_results] itself.  The score is
    whatever the model answered; the code does not clamp it. *)
Theorem get_after_successful_run w job_id j image m prediction row c font pixels artifacts :
  db w !! job_id = Some j ->
  id j = job_id ->
  writes_succeed 2 w = true ->
  cv2_imread (file_path j) = Some image ->
  keras_load_model "models/forgery_detection_model.h5" = Ok m ->
  predict m (expand_dims (div_255 (cv2_resample image (224, 224)))) = Ok prediction ->
  getitem prediction 0 = Ok row ->
  getitem row 0 = Ok c ->
  check_font_consistency (file_path j) = Ok font ->
  analyze_pixels (file_path j) = Ok pixels ->
  detect_compression_artifacts (file_path j) = Ok artifacts ->
  exists w' response analysis details,
    process_document_verification job_id w = (Ok tt, w') /\
    get job_id w' = (Ok response, w') /\
    reports_completed response c analysis /\
    py_get analysis "analysis_details" = Some details /\
    has_keys details analysis_keys = true /\
    has_keys analysis analysis_keys = false /\
    has_keys analysis ["is_authentic"; "confidence_score"; "analysis_details"] = true.
Proof.
  intros Hj Hid Hw Him Hm Hp Hrow Hc Hf Hx Ha.
  apply writes_succeed_next in Hw as [Hw1 Hw].
  apply writes_succeed_next in Hw as [Hw2 _].
  rewrite task_unfold. unfold task_unfolded.
  rewrite Hj, save_cases, Hw1, Hm.
  cbn [file_path set_status].
  rewrite (detect_forgery_returns {| model := m |} _ _ _ _ _ _ _ _ Him Hp Hrow Hc Hf Hx Ha).
  cbn [py_getitem assoc decide]. rewrite decide_False by done. rewrite decide_True by done.
  rewrite save_cases.
  replace (next_fault _) with (@None exn) by (symmetry; exact Hw2).
  eexists _, _, _, _. split; [reflexivity|].
  unfold get, try_except_cls, bind, objects_get, ret.
  cbn [db apply_write with_log with_db with_faults with_clock with_model_loads id completed_row set_completed_at set_status set_analysis_results set_confidence_score].
  rewrite Hid, lookup_insert_eq.
  split; [reflexivity|]. cbn. 
  split; [done|]. done.
Qed.







(** ** What a run leaves behind *)

(** [reachable_rows], with what the transition system adds: the row a
    delivery loads is still [pending]. *)
Lemma reachable_rows_pending (Q : VerificationJob -> Prop) :
  (forall job, created job -> Q job) ->
  (forall j rows r,
      Q j -> status j = pending -> task_rows j rows -> r ∈ rows -> Q r) ->
  forall w, reachable w -> forall k j, db w !! k = Some j -> Q j.
Proof.
  intros Hcreate Htask w Hreach. pose proof Hreach as (w0 & Hinit & Hsteps).
  revert w Hsteps Hreach.
  apply (rtc_ind_r (fun w => reachable w -> forall k j, db w !! k = Some j -> Q j)).
  { destruct Hinit as (Hdb0 & _). intros _ k j. by rewrite Hdb0, lookup_empty. }
  intros w1 w2 Hsteps Hstep IH _.
  assert (reachable w1) as Hreach1 by (by exists w0).
  specialize (IH Hreach1).
  pose proof (reachable_consistent _ Hreach1) as (Hid & _ & _ & Hqueued & _).
  destruct Hstep as [request w|verification_id w|job_id rest w Hq].
  - destruct (post_cases request w) as [(Hdb & _) | (job & Hjob & _ & Hdb & _)];
      intros k j; rewrite Hdb; cbn [foldl]; [apply IH|].
    destruct (decide (id job = k)) as [<-|Hne].
    + rewrite lookup_insert_eq. intros [= <-]. by apply Hcreate.
    + rewrite lookup_insert_ne by done. apply IH.
  - rewrite get_world. exact IH.
  - set (w' := with_queue (fun _ => rest) w).
    destruct (db w' !! job_id) as [j0|] eqn:Hj0.
    + destruct (task_wrote job_id w' j0 Hj0) as (rows & Hrows & Hdb & _).
      assert (status j0 = pending) as Hpending.
      { destruct (Hid _ _ Hj0) as [_ Hlast].
        rewrite (Hqueued job_id) in Hlast by (rewrite Hq; left).
        by injection Hlast. }
      intros k j. rewrite Hdb. intros [H | [H _]]%lookup_foldl_insert.
      * by apply (IH k).
      * apply (Htask j0 rows); [by apply (IH job_id)|done|done|done].
    + rewrite task_unknown_id by done. exact IH.
Qed.





(** ** The lifecycle *)

Lemma chain_impl {A} (R R' : A -> A -> Prop) (l : list A) :
  (forall a b, R a b -> R' a b) -> chain R l -> chain R' l.
Proof.
  intros HR. induction l as [|a [|b l] IH]; [done|done|].
  intros [Hab Hl]. split; [by apply HR|by apply IH].
Qed.

Lemma forward_rank (a b : Status) : forward a b -> rank a < rank b.
Proof. intros []; cbn; lia. Qed.

(** C4, amended.  In every reachable world, with every queued id delivered
    once, the statuses written for a job begin at [pending] and each one
    follows the one before by [pending -> processing],
    [processing -> completed], [processing -> failed], or
    [pending -> failed], the step a run takes when its write of [processing]
    raises and the write of its handler does not.  So no write moves a
    status backward, and the status a row holds is the last one written. *)
Theorem status_moves_forward w job_id :
  reachable w ->
  lifecycle forward (history job_id w) /\
  chain (fun a b => rank a < rank b) (history job_id w) /\
  (forall j, db w !! job_id = Some j ->
     last (history job_id w) = Some (status j)).
Proof.
  intros (Hid & _ & _ & _ & Hlife)%reachable_consistent.
  split; [apply Hlife|]. split.
  - apply (chain_impl forward); [apply forward_rank|apply Hlife].
  - intros j Hj. by apply Hid.
Qed.

(** ** Reaching a world *)

Lemma reachable_initial w : initial w -> reachable w.
Proof. intros H. exists w. split; [done|apply rtc_refl]. Qed.

Lemma reachable_step w w' : reachable w -> step w w' -> reachable w'.
Proof.
  intros (w0 & H0 & Hsteps) Hstep. exists w0. split; [done|].
  by eapply rtc_r.
Qed.

Lemma reachable_post request w :
  reachable w -> reachable (snd (post request w)).
Proof. intros H. apply (reachable_step w); [done|constructor]. Qed.

Lemma reachable_deliver w : reachable w -> reachable (deliver w).
Proof.
  intros H. unfold deliver. destruct (queue w) as [|job_id rest] eqn:Hq; [done|].
  apply (reachable_step w); [done|]. by apply step_worker.
Qed.

Lemma reachable_upload_and_process outcomes :
  reachable (upload_and_process (fresh outcomes)).
Proof.
  apply reachable_deliver, reachable_post, reachable_initial. done.
Qed.

(** ** More on the view, the detector and the task *)



(** X5.  After a POST that answers 200, a GET for the id it answered reports
    the job pending, with a null score and an empty analysis. *)
Theorem post_then_get request w response w' :
  post request w = (Ok response, w') ->
  status_code response = HTTP_200_OK ->
  exists verification_id,
    data response = PyDict [ ("verification_id", PyStr verification_id);
                             ("status", PyStr "pending") ] /\
    get verification_id w' =
      (Ok {| status_code := HTTP_200_OK;
             data := PyDict [ ("verification_id", PyStr verification_id);
                              ("status", PyStr "pending");
                              ("confidence_score", PyNone);
                              ("analysis_results", PyDict []) ] |}, w').
Proof.
  unfold post.
  destruct (FILES request !! "document") as [file|];
    [|intros [= <- <-]; discriminate].
  destruct (truthy (Some file)); [|intros [= <- <-]; discriminate].
  cbv beta iota zeta delta [bind lift_result objects_create gets modify timezone_now db_attempt write_row ret raise delay].
  destruct (calculate_hash file) as [h|e]; [|discriminate].
  destruct (save_file file) as [p|e]; [|discriminate].
  destruct (next_fault _) as [e|]; [discriminate|].
  cbn [db with_faults with_clock with_uuid_draws id].
  destruct (db w !! uuid4 (uuid_draws w)) as [old|]; [discriminate|].
  intros [= <- <-] _. exists (uuid4 (uuid_draws w)). split; [done|].
  unfold get, try_except_cls, bind, objects_get, ret. cbn.
  rewrite lookup_insert_eq. done.
Qed.

Lemma task_rows_identity j rows :
  task_rows j rows -> Forall (same_identity j) rows.
Proof. intros []; repeat constructor. Qed.

(** X6.  A run of the task on the row of [job_id] leaves the queue and every
    other row as they were, and leaves a row for [job_id] with the same id,
    hash, path and creation time. *)
Theorem task_frame job_id w j :
  db w !! job_id = Some j ->
  id j = job_id ->
  let w' := snd (process_document_verification job_id w) in
  queue w' = queue w /\
  (forall k, k <> job_id -> db w' !! k = db w !! k) /\
  exists j', db w' !! job_id = Some j' /\ same_identity j j'.
Proof.
  intros Hj Hid w'. destruct (task_wrote job_id w j Hj) as (rows & Hrows & Hdb & _ & Hq).
  fold w' in Hdb, Hq.
  pose proof (task_rows_identity _ _ Hrows) as Hsame.
  assert (Forall (fun r => id r = job_id) rows) as Hids.
  { eapply Forall_impl; [exact Hsame|]. intros r (Hr & _). congruence. }
  split; [done|]. split.
  - intros k Hk. rewrite Hdb. by apply (lookup_foldl_insert_other rows _ k job_id).
  - rewrite Hdb, (lookup_foldl_insert_same rows _ job_id Hids).
    destruct (last rows) as [r|] eqn:Hlast.
    + exists r. split; [done|].
      apply last_Some_elem_of in Hlast. by apply (proj1 (Forall_forall _ _) Hsame).
    + exists j. split; [done|]. by repeat split.
Qed.

(** X7.  When the model artifact fails to load, or the detection raises, and
    the two writes of the run succeed, the task returns normally and the row
    ends [failed] with the exception's message under [error]; its other
    fields are those it was loaded with, and [processing] then [failed] were
    written. *)
Theorem task_records_failure job_id w j e :
  db w !! job_id = Some j ->
  id j = job_id ->
  writes_succeed 2 w = true ->
  (keras_load_model "models/forgery_detection_model.h5" = Raise e \/
   exists m,
     keras_load_model "models/forgery_detection_model.h5" = Ok m /\
     detect_forgery {| model := m |} (file_path j) = Raise e) ->
  exists w',
    process_document_verification job_id w = (Ok tt, w') /\
    db w' !! job_id =
      Some (set_analysis_results (PyDict [ ("error", PyStr (exn_str e)) ])
              (set_status failed j)) /\
    log w' = log w ++ [(job_id, processing); (job_id, failed)].
Proof.
  intros Hj Hid Hw Hfail.
  apply writes_succeed_next in Hw as [Hw1 Hw].
  apply writes_succeed_next in Hw as [Hw2 _].
  rewrite task_unfold. unfold task_unfolded. rewrite Hj, save_cases, Hw1.
  assert (forall w1, next_fault w1 = None -> id j = job_id ->
    log w1 = log w ++ [(job_id, processing)] ->
    exists w',
      save (failed_row e (set_status processing j)) w1 = (Ok tt, w') /\
      db w' !! job_id =
        Some (set_analysis_results (PyDict [ ("error", PyStr (exn_str e)) ])
                (set_status failed j)) /\
      log w' = log w ++ [(job_id, processing); (job_id, failed)]) as Hhandler.
  { intros w1 Hnf _ Hlog. rewrite save_cases, Hnf. eexists. split; [reflexivity|].
    cbn. rewrite Hid, lookup_insert_eq, Hlog, <- app_assoc. done. }
  destruct Hfail as [Hm | (m & Hm & Hd)]; rewrite Hm.
  - apply Hhandler; [exact Hw2|done|]. cbn. by rewrite Hid.
  - cbn [file_path set_status]. rewrite Hd.
    apply Hhandler; [exact Hw2|done|]. cbn. by rewrite Hid.
Qed.

(** X8.  The task does not look at the status it finds: on a row of any
    status, finished ones included, its first write stores [processing] for
    the row whenever that write succeeds. *)
Theorem task_ignores_status job_id w j :
  db w !! job_id = Some j ->
  next_fault w = None ->
  exists rows,
    wrote (set_status processing j :: rows) w
      (snd (process_document_verification job_id w)).
Proof.
  intros Hj Hnf. destruct (task_wrote job_id w j Hj) as (rows & Hrows & Hwrote).
  rewrite task_unfold in *. unfold task_unfolded in *. rewrite Hj in *.
  rewrite save_cases, Hnf in *.
  destruct Hrows as [|e| |e|results c now Hdet|results c now e Hdet]; eauto.
  - (* nothing written: impossible, the first write succeeded *)
    exfalso. destruct Hwrote as (_ & Hlog & _). revert Hlog.
    repeat match goal with
           | |- context [match ?x with Ok _ => _ | Raise _ => _ end] => destruct x
           | |- context [save ?r ?w] => rewrite (save_cases r w)
           | |- context [match next_fault ?w with _ => _ end] => destruct (next_fault w)
           end; cbn; rewrite ?app_nil_r, <- ?app_assoc;
      intros H; apply (f_equal length) in H; rewrite !length_app in H; cbn in H; lia.
  - exfalso. destruct Hwrote as (_ & Hlog & _). revert Hlog.
    repeat match goal with
           | |- context [match ?x with Ok _ => _ | Raise _ => _ end] => destruct x
           | |- context [save ?r ?w] => rewrite (save_cases r w)
           | |- context [match next_fault ?w with _ => _ end] => destruct (next_fault w)
           end; cbn; rewrite <- ?app_assoc;
      intros H; apply app_inv_head in H; cbn in H; discriminate.
Qed.

(** X10.  [get_detailed_analysis] returns exactly when the three analyses
    return, and then a mapping of exactly the three keys, in the order of
    the source; it raises what the first analysis that raises raised, in the
    order font, pixels, compression. *)
Theorem get_detailed_analysis_spec image_path :
  (forall details,
      get_detailed_analysis image_path = Ok details <->
      exists font pixels artifacts,
        check_font_consistency image_path = Ok font /\
        analyze_pixels image_path = Ok pixels /\
        detect_compression_artifacts image_path = Ok artifacts /\
        details = PyDict [ ("font_consistency", font);
                           ("pixel_analysis", pixels);
                           ("compression_artifacts", artifacts) ]) /\
  (forall e,
      get_detailed_analysis image_path = Raise e <->
      check_font_consistency image_path = Raise e \/
      (is_ok (check_font_consistency image_path) = true /\
       analyze_pixels image_path = Raise e) \/
      (is_ok (check_font_consistency image_path) = true /\
       is_ok (analyze_pixels image_path) = true /\
       detect_compression_artifacts image_path = Raise e)).
Proof.
  unfold get_detailed_analysis, rbind.
  destruct (check_font_consistency image_path) as [font|e1];
    destruct (analyze_pixels image_path) as [pixels|e2];
    destruct (detect_compression_artifacts image_path) as [artifacts|e3];
    cbn; split; intros x; split; intros H;
    repeat match goal with
           | H : _ \/ _ |- _ => destruct H
           | H : _ /\ _ |- _ => destruct H
           | H : ex _ |- _ => destruct H
           end;
    try discriminate; try congruence;
    first [ do 3 eexists; repeat split; congruence
          | left; congruence
          | right; left; split; congruence
          | right; right; repeat split; congruence ].
Qed.

(** X11.  [detect_forgery] returns exactly when the image decodes, the
    forward pass returns, [prediction[0][0]] exists and the detailed analysis
    returns; its result then has the keys [is_authentic], [confidence_score]
    and [analysis_details], holding the threshold test of the score, the
    score and the analysis. *)
Theorem detect_forgery_returns_iff self image_path results :
  detect_forgery self image_path = Ok results <->
  exists image prediction row confidence details,
    cv2_imread image_path = Some image /\
    predict (model self)
      (expand_dims (div_255 (cv2_resample image (224, 224)))) = Ok prediction /\
    prediction !! 0 = Some row /\
    row !! 0 = Some confidence /\
    get_detailed_analysis image_path = Ok details /\
    results = PyDict [ ("is_authentic", PyBool (PrimFloat.ltb 0.5%float confidence));
                       ("confidence_score", PyFloat confidence);
                       ("analysis_details", details) ].
Proof.
  split.
  - intros H. unfold detect_forgery, preprocess_image, cv2_resize, rbind in H.
    destruct (cv2_imread image_path) as [image|] eqn:Him; [|discriminate].
    destruct (predict _ _) as [prediction|] eqn:Hp; [|discriminate].
    unfold getitem in H.
    destruct (prediction !! 0) as [row|] eqn:Hrow; [|discriminate].
    destruct (row !! 0) as [confidence|] eqn:Hc; [|discriminate].
    destruct (get_detailed_analysis image_path) as [details|] eqn:Hd; [|discriminate].
    injection H as <-. exists image, prediction, row, confidence, details. done.
  - intros (image & prediction & row & confidence & details
            & Him & Hp & Hrow & Hc & Hd & ->).
    unfold detect_forgery, preprocess_image, cv2_resize, getitem, rbind.
    rewrite Him, Hp, Hrow, Hc, Hd. reflexivity.
Qed.

(** X12.  [detect_forgery] fails in the order of its steps, whatever the
    later steps would do: on an undecodable file with the [cv2.error] of the
    resize, without consulting the model; on a forward pass that raises,
    with its exception; on a prediction that is empty or whose first row is
    empty, with an [IndexError]. *)
Theorem detect_forgery_raises_in_order self image_path :
  (cv2_imread image_path = None ->
   exists e, detect_forgery self image_path = Raise e /\ exn_type e = cv2_error) /\
  (forall image e,
      cv2_imread image_path = Some image ->
      predict (model self)
        (expand_dims (div_255 (cv2_resample image (224, 224)))) = Raise e ->
      detect_forgery self image_path = Raise e) /\
  (forall image prediction,
      cv2_imread image_path = Some image ->
      predict (model self)
        (expand_dims (div_255 (cv2_resample image (224, 224)))) = Ok prediction ->
      prediction = [] \/ head prediction = Some [] ->
      exists e, detect_forgery self image_path = Raise e /\ exn_type e = IndexError).
Proof.
  unfold detect_forgery, preprocess_image, cv2_resize, getitem, rbind.
  split; [|split].
  - intros ->. cbn. eexists. split; reflexivity.
  - intros image e -> ->. reflexivity.
  - intros image prediction -> -> [-> | Hhead]; cbn.
    + eexists. split; reflexivity.
    + destruct prediction as [|row rest]; [discriminate|].
      injection Hhead as ->. cbn. eexists. split; reflexivity.
Qed.

(** X14.  In every reachable world no id is queued twice, and every queued
    id has a row, stored under that id, still pending with a null score, an
    empty analysis and no completion time. *)
Theorem queued_jobs_pending w k :
  reachable w ->
  k ∈ queue w ->
  NoDup (queue w) /\
  exists j, db w !! k = Some j /\ id j = k /\ created j.
Proof.
  intros Hreach Hk.
  pose proof (reachable_consistent _ Hreach) as (Hid & Hnone & Hnd & Hqueued & _).
  split; [done|].
  destruct (db w !! k) as [j|] eqn:Hj.
  2:{ apply Hnone in Hj. rewrite (Hqueued _ Hk) in Hj. discriminate. }
  exists j. destruct (Hid _ _ Hj) as [Hidj Hlast]. split; [done|]. split; [done|].
  rewrite (Hqueued _ Hk) in Hlast. injection Hlast as Hst.
  revert Hst. revert k j Hj Hk Hidj.
  assert (forall k j, db w !! k = Some j -> status j = pending -> created j) as HQ.
  { apply (reachable_rows_pending (fun j => status j = pending -> created j)); [| |done].
    - done.
    - clear. intros j rows r _ _ Hrows Hr.
      destruct Hrows; repeat (apply elem_of_cons in Hr as [-> | Hr]);
        try (by apply elem_of_nil in Hr); cbn; discriminate. }
  intros k j Hj _ _ Hst. by apply (HQ k).
Qed.

Lemma task_completes job_id w j m results c :
  db w !! job_id = Some j ->
  id j = job_id ->
  writes_succeed 2 w = true ->
  keras_load_model "models/forgery_detection_model.h5" = Ok m ->
  detect_forgery {| model := m |} (file_path j) = Ok results ->
  py_getitem results "confidence_score" = Ok c ->
  exists w',
    process_document_verification job_id w = (Ok tt, w') /\
    exists now,
      db w' !! job_id =
        Some (completed_row results c now (set_status processing j)).
Proof.
  intros Hj Hid Hw Hm Hd Hc.
  apply writes_succeed_next in Hw as [Hw1 Hw].
  apply writes_succeed_next in Hw as [Hw2 _].
  rewrite task_unfold. unfold task_unfolded.
  rewrite Hj, save_cases, Hw1, Hm. cbn [file_path set_status]. rewrite Hd, Hc.
  rewrite save_cases.
  replace (next_fault _) with (@None exn) by (symmetry; exact Hw2).
  eexists. split; [reflexivity|]. eexists. cbn. rewrite Hid, lookup_insert_eq. done.
Qed.

Lemma post_accepted request w file h p :
  FILES request !! "document" = Some file ->
  truthy (Some file) = true ->
  calculate_hash file = Ok h ->
  save_file file = Ok p ->
  next_fault w = None ->
  db w !! uuid4 (uuid_draws w) = None ->
  let job := {| id := uuid4 (uuid_draws w); document_hash := h; file_path := p;
                status := pending; confidence_score := PyNone;
                analysis_results := PyDict []; created_at := clock w;
                completed_at := None |} in
  post request w =
    (Ok {| status_code := HTTP_200_OK;
           data := PyDict [ ("verification_id", PyStr (id job));
                            ("status", PyStr "pending") ] |},
     with_queue (fun q => q ++ [id job])
       (apply_write job
          (with_faults tail (with_clock S (with_uuid_draws S w))))).
Proof.
  intros Hfile Htruthy Hh Hp Hw Hfresh job. unfold post. rewrite Hfile, Htruthy.
  cbv beta iota zeta delta [bind lift_result objects_create gets modify timezone_now db_attempt write_row ret raise delay].
  rewrite Hh, Hp.
  replace (next_fault _) with (@None exn) by (symmetry; exact Hw).
  cbn [db with_faults with_clock with_uuid_draws id]. rewrite Hfresh. reflexivity.
Qed.

(** X15.  Upload, processing and query compose: for an upload the view
    accepts into an empty queue, with the three writes succeeding, the model
    loading and the detection on the stored path returning [results], the
    delivery empties the queue and a GET for the new id reports [completed],
    the [confidence_score] entry of [results] as the score, and [results]
    as the analysis. *)
Theorem upload_process_get request w file h p m results :
  FILES request !! "document" = Some file ->
  truthy (Some file) = true ->
  calculate_hash file = Ok h ->
  save_file file = Ok p ->
  db w !! uuid4 (uuid_draws w) = None ->
  queue w = [] ->
  writes_succeed 3 w = true ->
  keras_load_model "models/forgery_detection_model.h5" = Ok m ->
  detect_forgery {| model := m |} p = Ok results ->
  let verification_id := uuid4 (uuid_draws w) in
  let w' := deliver (snd (post request w)) in
  queue w' = [] /\
  exists score,
    py_get results "confidence_score" = Some score /\
    get verification_id w' =
      (Ok {| status_code := HTTP_200_OK;
             data := PyDict [ ("verification_id", PyStr verification_id);
                              ("status", PyStr "completed");
                              ("confidence_score", score);
                              ("analysis_results", results) ] |}, w').
Proof.
  intros Hfile Htruthy Hh Hp Hfresh Hq Hw Hm Hd vid w'.
  apply writes_succeed_next in Hw as [Hw1 Hw].
  destruct (detect_forgery_shape _ _ _ Hd) as (c & details & Hres & _).
  assert (py_getitem results "confidence_score" = Ok (PyFloat c)) as Hc
    by (by rewrite Hres).
  subst w'. rewrite (post_accepted request w file h p) by done.
  unfold deliver.
  cbn [snd queue with_queue apply_write with_log with_db with_faults with_clock with_uuid_draws id].
  rewrite Hq. cbn [app]. fold vid.
  set (job := {| id := vid; document_hash := h; file_path := p;
                 status := pending; confidence_score := PyNone;
                 analysis_results := PyDict []; created_at := clock w;
                 completed_at := None |}).
  set (w1 := with_queue (fun _ => []) _).
  assert (db w1 !! vid = Some job) as Hjob by (cbn; apply lookup_insert_eq).
  destruct (task_completes vid w1 job m results (PyFloat c))
    as (w2 & Hrun & now & Hrow); try done.
  destruct (task_wrote vid w1 job Hjob) as (rows & _ & _ & _ & Hqueue).
  rewrite Hrun in *. cbn [snd] in *. split; [exact Hqueue|].
  exists (PyFloat c). split; [by rewrite Hres|].
  unfold get, try_except_cls, bind, objects_get, ret. rewrite Hrow. done.
Qed.

(** X9.  One run of the task attempts at most three database writes. *)
Theorem task_write_attempts job_id w :
  exists n,
    n <= 3 /\
    faults (snd (process_document_verification job_id w)) = drop n (faults w).
Proof.
  assert (forall l : list (option exn), tail l = drop 1 l) as Htail by (by intros []).
  rewrite task_unfold. unfold task_unfolded.
  destruct (db w !! job_id) as [j|]; [|exists 0; split; [lia|done]].
  rewrite save_cases. destruct (next_fault w) as [e1|].
  { rewrite save_cases. destruct (next_fault _); cbn; exists 2;
      (split; [lia|]); by rewrite !Htail, drop_drop. }
  repeat match goal with
         | |- context [match ?x with Ok _ => _ | Raise _ => _ end] =>
             destruct x
         | |- context [save ?r ?w] => rewrite (save_cases r w)
         | |- context [match next_fault ?w with _ => _ end] =>
             destruct (next_fault w)
         end; cbn; rewrite !Htail, ?drop_drop;
    (eexists; split; [|reflexivity]); lia.
Qed.

(** X16.  In every reachable world a completed row holds a float score in
    its [confidence_score] column, and the [is_authentic] entry of its
    analysis is the test of that score against 0.5. *)
Theorem completed_flag_matches_score w k j :
  reachable w ->
  db w !! k = Some j ->
  status j = completed ->
  exists score,
    confidence_score j = PyFloat score /\
    py_get (analysis_results j) "is_authentic" =
      Some (PyBool (PrimFloat.ltb 0.5%float score)).
Proof.
  intros Hreach Hk.
  apply (reachable_rows (fun j => status j = completed ->
    exists score,
      confidence_score j = PyFloat score /\
      py_get (analysis_results j) "is_authentic" =
        Some (PyBool (PrimFloat.ltb 0.5%float score))))
    with (w := w) (k := k); [| |done|done].
  - intros job (Hst & _) Hc. congruence.
  - clear. intros j rows r _ Hrows Hr.
    destruct Hrows as [|e| |e|results c now (m & Hm & Hd & Hc)|results c now e Hdet];
      repeat (apply elem_of_cons in Hr as [-> | Hr]);
      try (by apply elem_of_nil in Hr); cbn; try discriminate.
    intros _. destruct (detect_forgery_shape _ _ _ Hd) as (c' & details & -> & _).
    cbn in Hc. injection Hc as <-. eauto.
Qed.


End Properties.

(** * The code on the small installation *)

(** C1.  A delivery of an id that has no row: the lookup raises
    [DoesNotExist], the handler reads the variable [job] that was never
    assigned, and the [UnboundLocalError] of that read leaves the task; no
    row is written. *)
Theorem worker_lookup_failure_escapes :
  process_document_verification (env := demo 0.75%float) "job-7" (fresh []) =
    (Raise unbound_job, fresh []).
Proof. vm_compute. reflexivity. Qed.

(** C3.  An upload whose processing detects a score and then fails to write
    the completed row (the third write raises), while the handler's write
    succeeds: the job ends [failed] with its score and its completion time
    set. *)
Theorem failed_job_keeps_score :
  let w := upload_and_process (env := demo 0.75%float)
             (fresh [None; None; Some outage]) in
  reachable (env := demo 0.75%float) w /\
  exists j,
    db w !! "job-0" = Some j /\
    status j = failed /\
    confidence_score j = PyFloat 0.75%float /\
    completed_at j = Some 1 /\
    analysis_results j = PyDict [ ("error", PyStr (exn_str outage)) ].
Proof.
  split; [apply reachable_upload_and_process|].
  eexists. split; [vm_compute; reflexivity|]. repeat split.
Qed.

(** C2, as stated, fails: an upload of a decodable image, processed with
    every step succeeding and a score of 0.75; the GET reports [completed]
    and the score, and its [analysis_results] has none of the three analysis
    keys, which sit one level down. *)
Lemma analysis_keys_not_top_level :
  let w := upload_and_process (env := demo 0.75%float) (fresh []) in
  cv2_imread (Env := demo 0.75%float) "uploads/scan.jpg" = Some [[black]] /\
  exists response,
    get "job-0" w = (Ok response, w) /\
    ~ scenario_response response.
Proof.
  split; [reflexivity|]. eexists. split; [vm_compute; reflexivity|].
  intros (c & analysis & (_ & _ & _ & Ha) & _ & Hkeys).
  vm_compute in Ha. injection Ha as <-. vm_compute in Hkeys. discriminate.
Qed.

Lemma get_after_successful_run_witness :
  exists w' response analysis details,
    process_document_verification (env := demo 0.75%float) "job-0"
      (snd (post (env := demo 0.75%float) upload (fresh []))) = (Ok tt, w') /\
    get "job-0" w' = (Ok response, w') /\
    reports_completed response 0.75%float analysis /\
    py_get analysis "analysis_details" = Some details /\
    has_keys details analysis_keys = true /\
    has_keys analysis analysis_keys = false /\
    has_keys analysis ["is_authentic"; "confidence_score"; "analysis_details"] = true.
Proof.
  apply (get_after_successful_run (env := demo 0.75%float) _ "job-0"
           demo_pending_row [[black]] (constant_model 0.75%float)
           [[0.75%float]] [0.75%float] 0.75%float
           (PyBool true) (PyBool true) (PyBool false));
    vm_compute; reflexivity.
Defined.

(** C4, as stated, fails: an upload whose write of [processing] raises and
    whose handler's write succeeds goes from [pending] to [failed] with no
    [processing] between them. *)
Lemma failed_reached_from_pending :
  ~ (forall w job_id,
       reachable (env := demo 0.75%float) w ->
       lifecycle forward_spec (history job_id w)).
Proof.
  intros H.
  specialize (H (upload_and_process (env := demo 0.75%float)
                   (fresh [None; Some outage])) "job-0"
                (reachable_upload_and_process _)).
  assert (history "job-0" (upload_and_process (env := demo 0.75%float)
                             (fresh [None; Some outage])) = [pending; failed])
    as Hh by (vm_compute; reflexivity).
  rewrite Hh in H. destruct H as [_ [Hbad _]]. inversion Hbad.
Qed.

Lemma status_moves_forward_witness :
  let w := upload_and_process (env := demo 0.75%float)
             (fresh [None; Some outage]) in
  lifecycle forward (history "job-0" w) /\
  chain (fun a b => rank a < rank b) (history "job-0" w) /\
  (forall j, db w !! "job-0" = Some j ->
     last (history "job-0" w) = Some (status j)).
Proof.
  apply (status_moves_forward (env := demo 0.75%float)).
  apply reachable_upload_and_process.
Defined.

Lemma is_authentic_iff_above_half_witness :
  exists confidence is_authentic,
    py_get (PyDict [ ("is_authentic", PyBool false);
                     ("confidence_score", PyFloat 0.5%float);
                     ("analysis_details",
                      PyDict [ ("font_consistency", PyBool true);
                               ("pixel_analysis", PyBool true);
                               ("compression_artifacts", PyBool false) ]) ])
      "confidence_score" = Some (PyFloat confidence) /\
    py_get (PyDict [ ("is_authentic", PyBool false);
                     ("confidence_score", PyFloat 0.5%float);
                     ("analysis_details",
                      PyDict [ ("font_consistency", PyBool true);
                               ("pixel_analysis", PyBool true);
                               ("compression_artifacts", PyBool false) ]) ])
      "is_authentic" = Some (PyBool is_authentic) /\
    (is_authentic = true <-> PrimFloat.ltb 0.5%float confidence = true) /\
    (confidence = 0.5%float -> is_authentic = false).
Proof.
  apply (is_authentic_iff_above_half (env := demo 0.5%float)
           {| model := constant_model 0.5%float |} "uploads/scan.jpg").
  vm_compute. reflexivity.
Defined.


Lemma post_without_document_400_witness :
  post (env := demo 0.75%float) empty_request (fresh []) =
    (Ok {| status_code := HTTP_400_BAD_REQUEST;
           data := PyDict [ ("error", PyStr "No document provided") ] |},
     fresh []).
Proof. apply post_without_document_400. reflexivity. Defined.




Lemma completed_row_stores_detection_result_witness :
  (exists m,
      keras_load_model (Env := demo 0.75%float)
        "models/forgery_detection_model.h5" = Ok m /\
      detect_forgery (env := demo 0.75%float) {| model := m |}
        (file_path demo_completed_row) =
        Ok (analysis_results demo_completed_row)) /\
  py_contains (analysis_results demo_completed_row) "confidence_score" = true /\
  py_contains (analysis_results demo_completed_row) "is_authentic" = true /\
  py_get (analysis_results demo_completed_row) "confidence_score" =
    Some (confidence_score demo_completed_row).
Proof.
  apply (completed_row_stores_detection_result (env := demo 0.75%float)
           (upload_and_process (env := demo 0.75%float) (fresh [])) "job-0").
  - apply reachable_upload_and_process.
  - vm_compute. reflexivity.
  - reflexivity.
Defined.



(** ** More runs on the small installation *)

Lemma scaling_keeps_order_witness :
  PrimFloat.ltb (scaled Byte.x10) (scaled Byte.x20) = true /\
  scaled Byte.x00 = 0%float /\
  scaled Byte.xff = 1%float.
Proof. apply scaling_keeps_order. reflexivity. Defined.

Lemma post_then_get_witness :
  exists verification_id,
    PyDict [ ("verification_id", PyStr "job-0"); ("status", PyStr "pending") ] =
      PyDict [ ("verification_id", PyStr verification_id);
               ("status", PyStr "pending") ] /\
    get verification_id (snd (post (env := demo 0.75%float) upload (fresh []))) =
      (Ok {| status_code := HTTP_200_OK;
             data := PyDict [ ("verification_id", PyStr verification_id);
                              ("status", PyStr "pending");
                              ("confidence_score", PyNone);
                              ("analysis_results", PyDict []) ] |},
       snd (post (env := demo 0.75%float) upload (fresh []))).
Proof.
  apply (post_then_get (env := demo 0.75%float) upload (fresh [])
           {| status_code := HTTP_200_OK;
              data := PyDict [ ("verification_id", PyStr "job-0");
                               ("status", PyStr "pending") ] |});
    vm_compute; reflexivity.
Defined.

Lemma task_frame_witness :
  let w := two_uploads (env := demo 0.75%float) (fresh []) in
  let w' := snd (process_document_verification (env := demo 0.75%float) "job-0" w) in
  queue w' = queue w /\
  (forall k, k <> "job-0" -> db w' !! k = db w !! k) /\
  exists j', db w' !! "job-0" = Some j' /\ same_identity demo_pending_row j'.
Proof.
  apply (task_frame (env := demo 0.75%float) "job-0"
           (two_uploads (env := demo 0.75%float) (fresh [])) demo_pending_row);
    vm_compute; reflexivity.
Defined.

Lemma task_records_failure_witness :
  exists w',
    process_document_verification (env := demo 0.75%float) "job-0"
      (snd (post (env := demo 0.75%float) torn_upload (fresh []))) = (Ok tt, w') /\
    db w' !! "job-0" =
      Some (set_analysis_results
              (PyDict [ ("error", PyStr (exn_str resize_of_nothing)) ])
              (set_status failed demo_torn_row)) /\
    log w' = log (snd (post (env := demo 0.75%float) torn_upload (fresh []))) ++
               [("job-0", processing); ("job-0", failed)].
Proof.
  apply (task_records_failure (env := demo 0.75%float) "job-0" _ demo_torn_row
           resize_of_nothing).
  - vm_compute. reflexivity.
  - reflexivity.
  - reflexivity.
  - right. exists (constant_model 0.75%float). split; vm_compute; reflexivity.
Defined.

Lemma task_ignores_status_witness :
  exists rows,
    wrote (set_status processing demo_completed_row :: rows)
      (upload_and_process (env := demo 0.75%float) (fresh []))
      (snd (process_document_verification (env := demo 0.75%float) "job-0"
              (upload_and_process (env := demo 0.75%float) (fresh [])))).
Proof.
  apply (task_ignores_status (env := demo 0.75%float) "job-0").
  - vm_compute. reflexivity.
  - reflexivity.
Defined.

Lemma detect_forgery_raises_in_order_witness :
  exists e,
    detect_forgery (env := demo 0.75%float)
      {| model := constant_model 0.75%float |} "uploads/torn.jpg" = Raise e /\
    exn_type e = cv2_error.
Proof.
  apply (proj1 (detect_forgery_raises_in_order (env := demo 0.75%float)
                  {| model := constant_model 0.75%float |} "uploads/torn.jpg")).
  reflexivity.
Defined.

Lemma reachable_two_uploads outcomes :
  reachable (env := demo 0.75%float)
    (two_uploads (env := demo 0.75%float) (fresh outcomes)).
Proof. apply reachable_post, reachable_post, reachable_initial. done. Qed.

Lemma queued_jobs_pending_witness :
  NoDup (queue (two_uploads (env := demo 0.75%float) (fresh []))) /\
  exists j,
    db (two_uploads (env := demo 0.75%float) (fresh [])) !! "job-1" = Some j /\
    id j = "job-1" /\ created j.
Proof.
  apply (queued_jobs_pending (env := demo 0.75%float)).
  - apply reachable_two_uploads.
  - vm_compute. right. left.
Defined.

Lemma upload_process_get_witness :
  let w' := deliver (env := demo 0.75%float)
              (snd (post (env := demo 0.75%float) upload (fresh []))) in
  queue w' = [] /\
  exists score,
    py_get demo_results "confidence_score" = Some score /\
    get "job-0" w' =
      (Ok {| status_code := HTTP_200_OK;
             data := PyDict [ ("verification_id", PyStr "job-0");
                              ("status", PyStr "completed");
                              ("confidence_score", score);
                              ("analysis_results", demo_results) ] |}, w').
Proof.
  apply (upload_process_get (env := demo 0.75%float) upload (fresh [])
           {| name := "scan.jpg"; content := [] |} "9f86d081884c7d65"
           "uploads/scan.jpg" (constant_model 0.75%float) demo_results);
    vm_compute; reflexivity.
Defined.

Lemma completed_flag_matches_score_witness :
  exists score,
    confidence_score demo_completed_row = PyFloat score /\
    py_get (analysis_results demo_completed_row) "is_authentic" =
      Some (PyBool (PrimFloat.ltb 0.5%float score)).
Proof.
  apply (completed_flag_matches_score (env := demo 0.75%float)
           (upload_and_process (env := demo 0.75%float) (fresh [])) "job-0").
  - apply reachable_upload_and_process.
  - vm_compute. reflexivity.
  - reflexivity.
Defined.

